(** * The Okta nozzle of trident: [pkg/nozzle/okta/okta.go]

    A shallow embedding of the driver constructor [Driver.New] and of the
    login attempt [Nozzle.Login], followed by the properties of the
    natural-language specification that concern them.

    The Go libraries the package calls (the rate limiter of
    [golang.org/x/time/rate], [net/http], [net/url], [encoding/json]) are
    not part of the package: they enter the development as the operations of
    a [Platform], and every theorem holds for every platform.  Module [Sim]
    at the end of the definitions gives one concrete platform on which the
    statements are evaluated. *)

From Stdlib Require Import Ascii String ZArith.
From stdpp Require Import base option strings list gmap pretty sorting.

Local Open Scope string_scope.
Local Open Scope Z_scope.

(** ** Go strings *)

Module strings.

(** [strings.HasSuffix]:
    [len(s) >= len(suffix) && s[len(s)-len(suffix):] == suffix]. *)
Definition HasSuffix (s suffix : string) : bool :=
  (String.length suffix <=? String.length s)%nat &&
  String.eqb
    (String.substring (String.length s - String.length suffix)
                      (String.length suffix) s)
    suffix.

(** [strings.Contains]: [substr] occurs somewhere in [s]. *)
Fixpoint Contains (s substr : string) : bool :=
  String.prefix substr s ||
  match s with
  | EmptyString => false
  | String _ s' => Contains s' substr
  end.

End strings.

(** ** Values of the package *)

(** [FrozenUserAgent], the constant of okta.go:36-37: two literals joined by
    [+], with no space between them. *)
Definition FrozenUserAgent : string :=
  "Mozilla/5.0 (Windows NT 10.0; Win64; x64)" +:+
  "AppleWebKit/537.36 (KHTML, like Gecko) Chrome/75.0.3764.0 Safari/537.36".

(** [type Nozzle struct { Subdomain string; UserAgent string }]. *)
Record Nozzle := mkNozzle {
  Subdomain : string;
  UserAgent : string;
}.

(** A Go pair [(T, error)] of which exactly one component is set. *)
Inductive result (E T : Type) :=
| Ok (v : T)
| Err (e : E).
Arguments Ok {E T} v.
Arguments Err {E T} e.

(** An error built in place by [fmt.Errorf]: its message. *)
Inductive FmtError := Errorf (msg : string).

Definition Error (e : FmtError) : string := let 'Errorf msg := e in msg.

(** The error of a failed URL validation: the URL's host does not end with
    the suffix. *)
Inductive SuffixError := HostLacksSuffix (url suffix : string).

(** ** Construction: [Driver.New] (okta.go:59-69)

    [opts] is a Go [map[string]string]; [opts["subdomain"]] with the
    comma-ok form is the lookup [opts !! "subdomain"]. *)
Definition New (opts : gmap string string) : result FmtError Nozzle :=
  match opts !! "subdomain" with
  | None => Err (Errorf "okta nozzle requires 'subdomain' config parameter")
  | Some subdomain =>
      Ok {| Subdomain := subdomain; UserAgent := FrozenUserAgent |}
  end.

(** ** What the libraries provide *)

(** The Go types the package only passes around. *)
Class GoTypes := {
  (** the state of everything outside the function: limiter, network, clock *)
  World : Type;
  (** [error] values made by a library *)
  LibError : Type;
  (** [context.Context] *)
  context_Context : Type;
  (** the dynamic values behind [interface{}] in decoded JSON *)
  Any : Type;
  (** the body of a response, an [io.ReadCloser] *)
  ReadCloser : Type;
}.

Section Types.
Context `{GoTypes}.

(** [type oktaAuthResponse struct] (okta.go:80-84).  A Go map value is
    either [nil] ([None]) or a finite map. *)
Record oktaAuthResponse := mkOktaAuthResponse {
  Status : string;
  Factor : string;
  Embedded : option (gmap string Any);
}.

(** Modelled from the spec: the struct [event.AuthResponse] of package
    [pkg/event], whose declaration is not part of this package.  It is the
    spec's AuthOutcome, four booleans and an open mapping, under the field
    names of the composite literals of [Login]; a field that a literal
    leaves out has its zero value. *)
Record AuthResponse := mkAuthResponse {
  Valid : bool;
  MFA : bool;
  Locked : bool;
  RateLimited : bool;
  Metadata : option (gmap string Any);
}.

(** The part of [http.Request] that [Login] fills in. *)
Record Request := mkRequest {
  Method : string;
  URL : string;
  Header : gmap string (list string);
  ReqBody : string;
}.

(** The part of [http.Response] that [Login] reads. *)
Record Response := mkResponse {
  StatusCode : Z;
  Body : ReadCloser;
}.

(** [req.Header.Set(key, value)]: the values under [key] are replaced by
    the single [value].  Both keys used below are in canonical form. *)
Definition Header_Set (key value : string) (req : Request) : Request :=
  {| Method := Method req; URL := URL req;
     Header := <[key := [value]]> (Header req);
     ReqBody := ReqBody req |}.

End Types.

(** The library operations, as functions of the world they act on. *)
Class Platform `{GoTypes} := {
  (** [context.Background()] *)
  context_Background : context_Context;
  (** the [Wait] method of the package's [RateLimiter]: [None] is a
      granted permit, [Some e] the error returned instead *)
  Limiter_Wait : context_Context → World → option LibError * World;
  (** [url.Parse(s)] followed by [Hostname()] *)
  url_Hostname : string → string;
  (** the error of [url.Parse], the one way [http.NewRequest] fails for a
      valid method *)
  url_Parse_err : string → option LibError;
  (** [json.Marshal] of a [map[string]string] *)
  json_Marshal : gmap string string → string;
  (** [http.DefaultClient.Do] *)
  Client_Do : Request → World → result LibError Response * World;
  (** [json.NewDecoder(body).Decode(&res)] for [res] an [oktaAuthResponse] *)
  json_Decode : ReadCloser → result LibError oktaAuthResponse;
}.

Section Okta.
Context `{Platform}.

(** *** Effects

    [Login] acts on the world by waiting for a permit, by handing a
    request to the HTTP client, and by reading and closing the body of
    the response.  Each of these is recorded, in order, in a trace kept
    next to the world. *)
Inductive Event :=
| EvWait (ctx : context_Context) (err : option LibError)
    (** [RateLimiter.Wait(ctx)] returned [err]; [None] is a permit *)
| EvSend (req : Request)
    (** [req] was handed to the HTTP client *)
| EvRecv (resp : Response)
    (** the HTTP client returned the response [resp] *)
| EvDecode
    (** the JSON decoder read the body of the response *)
| EvClose.
    (** the body of the response was closed *)

Record State := mkState {
  world : World;
  trace : list Event;
}.

Definition M (A : Type) : Type := State → A * State.

#[export] Instance M_ret : MRet M := λ A a s, (a, s).

#[export] Instance M_bind : MBind M :=
  λ A B k m s, let '(a, s') := m s in k a s'.

Definition emit (e : Event) : M unit :=
  λ s, (tt, {| world := world s; trace := trace s ++ [e] |}).

(** A call that changes the world. *)
Definition call {A} (f : World → A * World) : M A :=
  λ s, let '(a, w') := f (world s) in
       (a, {| world := w'; trace := trace s |}).

(** [defer f()] around the rest of a function body. *)
Definition defer {A} (deferred : M unit) (body : M A) : M A :=
  r ← body; deferred;; mret r.

(** A run from world [w] with nothing recorded yet. *)
Definition run {A} (m : M A) (w : World) : A * State :=
  m {| world := w; trace := [] |}.

Definition RateLimiter_Wait (ctx : context_Context) : M (option LibError) :=
  err ← call (Limiter_Wait ctx);
  emit (EvWait ctx err);;
  mret err.

Definition DefaultClient_Do (req : Request) : M (result LibError Response) :=
  emit (EvSend req);;
  r ← call (Client_Do req);
  match r with
  | Ok resp => emit (EvRecv resp)
  | Err _ => mret ()
  end;;
  mret r.

Definition Decode (body : ReadCloser)
  : M (result LibError oktaAuthResponse) :=
  emit EvDecode;; mret (json_Decode body).

Definition Close (body : ReadCloser) : M unit := emit EvClose.

(** [http.NewRequest(method, url, body)] for a valid [method]. *)
Definition http_NewRequest (method url body : string)
  : result LibError Request :=
  match url_Parse_err url with
  | Some e => Err e
  | None =>
      Ok {| Method := method; URL := url; Header := ∅; ReqBody := body |}
  end.

(** *** URL validation *)

(** Modelled from the spec: [util.ValidateURLSuffix] of package
    [pkg/util], which [Login] calls and whose source is not part of this
    package.  Following step 3 of the spec's login contract it accepts a
    URL exactly when the host of the URL has the expected suffix, and
    fails with an error about that URL and suffix otherwise. *)
Definition ValidateURLSuffix (url suffix : string) : option SuffixError :=
  if strings.HasSuffix (url_Hostname url) suffix then None
  else Some (HostLacksSuffix url suffix).

(** *** The login attempt *)

(** The errors of [Login], one constructor for each [return nil, err] of
    the source, carrying the error value returned there. *)
Inductive LoginError :=
| ErrWait (e : LibError)        (** okta.go:93, from [RateLimiter.Wait] *)
| ErrValidate (e : SuffixError) (** okta.go:99, from [ValidateURLSuffix] *)
| ErrNewRequest (e : LibError)  (** okta.go:108, from [http.NewRequest] *)
| ErrDo (e : LibError)          (** okta.go:116, from the HTTP client *)
| ErrDecode (e : LibError)      (** okta.go:125, from the JSON decoder *)
| ErrStatus (e : FmtError).     (** okta.go:144, built by [fmt.Errorf] *)

(** [fmt.Sprintf("https://%s.okta.com/api/v1/authn", subdomain)]. *)
Definition authn_url (subdomain : string) : string :=
  "https://" +:+ subdomain +:+ ".okta.com/api/v1/authn".

(** [Nozzle.Login] (okta.go:89-145).  The [switch] on the status code
    is the chain of comparisons with 200, 401 and 429; the deferred
    [resp.Body.Close()] surrounds everything after a response arrived. *)
Definition Login (n : Nozzle) (username password : string)
  : M (result LoginError AuthResponse) :=
  let ctx := context_Background in
  err ← RateLimiter_Wait ctx;
  match err with
  | Some e => mret (Err (ErrWait e))
  | None =>
  let url := authn_url (Subdomain n) in
  match ValidateURLSuffix url ".okta.com" with
  | Some e => mret (Err (ErrValidate e))
  | None =>
  let data := json_Marshal
    (<["username" := username]> (<["password" := password]> ∅)) in
  match http_NewRequest "POST" url data with
  | Err e => mret (Err (ErrNewRequest e))
  | Ok req =>
  let req := Header_Set "Content-Type" "application/json" req in
  let req := Header_Set "User-Agent" (UserAgent n) req in
  r ← DefaultClient_Do req;
  match r with
  | Err e => mret (Err (ErrDo e))
  | Ok resp =>
  defer (Close (Body resp))
    (if StatusCode resp =? 200 then
       d ← Decode (Body resp);
       match d with
       | Err e => mret (Err (ErrDecode e))
       | Ok res =>
           mret (Ok {| Valid := negb (String.eqb (Status res) "LOCKED_OUT");
                       MFA := String.eqb (Status res) "MFA_REQUIRED";
                       Locked := String.eqb (Status res) "LOCKED_OUT";
                       RateLimited := false;
                       Metadata := Embedded res |})
       end
     else if StatusCode resp =? 401 then
       mret (Ok {| Valid := false; MFA := false; Locked := false;
                   RateLimited := false; Metadata := None |})
     else if StatusCode resp =? 429 then
       mret (Ok {| Valid := false; MFA := false; Locked := false;
                   RateLimited := true; Metadata := None |})
     else
       mret (Err (ErrStatus
         (Errorf ("unhandled status code from okta provider: " +:+
                  pretty (StatusCode resp))))))
  end end end end.

(** *** Reading a run *)

(** The requests of a trace, in the order they were sent. *)
Definition sent (t : list Event) : list Request :=
  omap (λ ev, match ev with EvSend req => Some req | _ => None end) t.

(** The spec's names for the errors of [Login] (its section 7). *)
Definition SecurityError (e : LoginError) : Prop :=
  match e with ErrValidate _ => True | _ => False end.

Definition NetworkError (e : LoginError) : Prop :=
  match e with ErrDo _ => True | _ => False end.

Definition ProtocolError (e : LoginError) : Prop :=
  match e with ErrDecode _ | ErrStatus _ => True | _ => False end.

(** The five ways through the [switch] on the status code of [resp]:
    the value returned and what was done to the body on the way. *)
Inductive Classified (resp : Response)
  : result LoginError AuthResponse → list Event → Prop :=
| Classified_decoded res :
    StatusCode resp = 200 →
    json_Decode (Body resp) = Ok res →
    Classified resp
      (Ok {| Valid := negb (String.eqb (Status res) "LOCKED_OUT");
             MFA := String.eqb (Status res) "MFA_REQUIRED";
             Locked := String.eqb (Status res) "LOCKED_OUT";
             RateLimited := false;
             Metadata := Embedded res |})
      [EvDecode]
| Classified_undecodable e :
    StatusCode resp = 200 →
    json_Decode (Body resp) = Err e →
    Classified resp (Err (ErrDecode e)) [EvDecode]
| Classified_401 :
    StatusCode resp = 401 →
    Classified resp
      (Ok {| Valid := false; MFA := false; Locked := false;
             RateLimited := false; Metadata := None |}) []
| Classified_429 :
    StatusCode resp = 429 →
    Classified resp
      (Ok {| Valid := false; MFA := false; Locked := false;
             RateLimited := true; Metadata := None |}) []
| Classified_unhandled :
    StatusCode resp ≠ 200 → StatusCode resp ≠ 401 →
    StatusCode resp ≠ 429 →
    Classified resp
      (Err (ErrStatus
         (Errorf ("unhandled status code from okta provider: " +:+
                  pretty (StatusCode resp))))) [].

(** The five ways through [Login] from world [w]: the value returned
    and the final state. *)
Inductive Runs (n : Nozzle) (w : World)
  : result LoginError AuthResponse → State → Prop :=
| Runs_no_permit e w1 :
    Limiter_Wait context_Background w = (Some e, w1) →
    Runs n w (Err (ErrWait e))
      {| world := w1; trace := [EvWait context_Background (Some e)] |}
| Runs_rejected w1 e :
    Limiter_Wait context_Background w = (None, w1) →
    ValidateURLSuffix (authn_url (Subdomain n)) ".okta.com" = Some e →
    Runs n w (Err (ErrValidate e))
      {| world := w1; trace := [EvWait context_Background None] |}
| Runs_no_request w1 e :
    Limiter_Wait context_Background w = (None, w1) →
    ValidateURLSuffix (authn_url (Subdomain n)) ".okta.com" = None →
    url_Parse_err (authn_url (Subdomain n)) = Some e →
    Runs n w (Err (ErrNewRequest e))
      {| world := w1; trace := [EvWait context_Background None] |}
| Runs_no_response w1 req e w2 :
    Limiter_Wait context_Background w = (None, w1) →
    ValidateURLSuffix (authn_url (Subdomain n)) ".okta.com" = None →
    URL req = authn_url (Subdomain n) →
    Client_Do req w1 = (Err e, w2) →
    Runs n w (Err (ErrDo e))
      {| world := w2;
         trace := [EvWait context_Background None; EvSend req] |}
| Runs_response w1 req resp w2 r t :
    Limiter_Wait context_Background w = (None, w1) →
    ValidateURLSuffix (authn_url (Subdomain n)) ".okta.com" = None →
    URL req = authn_url (Subdomain n) →
    Client_Do req w1 = (Ok resp, w2) →
    Classified resp r t →
    Runs n w r
      {| world := w2;
         trace := EvWait context_Background None :: EvSend req
                  :: EvRecv resp :: (t ++ [EvClose])%list |}.

End Okta.

(** ** A concrete platform

    A small world to run the package in: the limiter either grants every
    permit or is out of order, contexts are the background context or one
    that is already cancelled, and the network answers every request the
    same way.  Response bodies are given by the JSON value they spell. *)
Module Sim.

#[local] Set Warnings "-register-all".

(** A JSON value; also what [interface{}] holds after decoding one. *)
Inductive Json :=
| JNull
| JBool (b : bool)
| JNumber (n : Z)
| JString (s : string)
| JArray (elems : list Json)
| JObject (members : list (string * Json)).

Inductive SimContext :=
| Background
| Cancelled.

(** What the server sends: a status code and either the JSON value its
    body spells or [None] for a body that is not JSON. *)
Definition Reply : Type := Z * option Json.

Record SimWorld := mkWorld {
  limiter_err : option string;  (** the error of a limiter out of order *)
  network : result string Reply;  (** a transport error, or the reply *)
  requests : nat;  (** how many requests reached the network *)
}.

#[export] Instance types : GoTypes := {|
  World := SimWorld;
  LibError := string;
  context_Context := SimContext;
  Any := Json;
  ReadCloser := option Json;
|}.

(** [Wait] gives up at once on a limiter out of order, then on a context
    that is done; otherwise the permit is granted. *)
Definition Wait (ctx : SimContext) (w : SimWorld)
  : option string * SimWorld :=
  match limiter_err w, ctx with
  | Some e, _ => (Some e, w)
  | None, Cancelled => (Some "context canceled", w)
  | None, Background => (None, w)
  end.

(** What follows the first occurrence of [sep] in [s]. *)
Fixpoint after (sep : string) (s : string) : option string :=
  if String.prefix sep s
  then Some (String.substring (String.length sep) (String.length s) s)
  else match s with
       | EmptyString => None
       | String _ s' => after sep s'
       end.

(** The part of [s] before the first character that [stop] holds of. *)
Fixpoint until (stop : ascii → bool) (s : string) : string :=
  match s with
  | EmptyString => EmptyString
  | String c s' => if stop c then EmptyString else String c (until stop s')
  end.

(** What follows the last [c] in [s]; all of [s] when there is none. *)
Fixpoint after_last (c : ascii) (s : string) : string :=
  match s with
  | EmptyString => EmptyString
  | String c' s' =>
      if Ascii.eqb c c' && negb (strings.Contains s' (String c EmptyString))
      then s' else
      if strings.Contains s' (String c EmptyString)
      then after_last c s' else s
  end.

Definition ends_authority (c : ascii) : bool :=
  Ascii.eqb c "/"%char || Ascii.eqb c "?"%char || Ascii.eqb c "#"%char.

(** The host of [scheme://userinfo@host:port/path?query#fragment]:
    the authority ends at the first of [/], [?] and [#]; the host is what
    follows its last [@], up to the port (IPv6 literals are left out). *)
Definition Hostname (url : string) : string :=
  let rest := default url (after "://" url) in
  let authority := until ends_authority rest in
  until (Ascii.eqb ":"%char) (after_last "@"%char authority).

(** Field names are matched without regard to (ASCII) letter case. *)
Definition lower (c : ascii) : ascii :=
  let n := Ascii.nat_of_ascii c in
  if ((65 <=? n) && (n <=? 90))%nat then ascii_of_nat (n + 32) else c.

Fixpoint fold_case (s : string) : string :=
  match s with
  | EmptyString => EmptyString
  | String c s' => String (lower c) (fold_case s')
  end.

Definition type_error (what field : string) : string :=
  "json: cannot unmarshal " +:+ what +:+ " into Go struct field " +:+ field.

Definition kind (v : Json) : string :=
  match v with
  | JNull => "null" | JBool _ => "bool" | JNumber _ => "number"
  | JString _ => "string" | JArray _ => "array" | JObject _ => "object"
  end.

(** Decoding one member into the struct: [null] leaves a string field
    alone and empties a map field, a value of the wrong kind is an error
    (the first one is kept), an unknown key is skipped. *)
Definition decode_member (acc : oktaAuthResponse * option string)
    (kv : string * Json) : oktaAuthResponse * option string :=
  let '(res, err) := acc in
  let '(k, v) := kv in
  let fail field := (res, Some (default (type_error (kind v) field) err)) in
  if String.eqb (fold_case k) "status" then
    match v with
    | JNull => acc
    | JString s => (mkOktaAuthResponse s (Factor res) (Embedded res), err)
    | _ => fail "oktaAuthResponse.status"
    end
  else if String.eqb (fold_case k) "factorresult" then
    match v with
    | JNull => acc
    | JString s => (mkOktaAuthResponse (Status res) s (Embedded res), err)
    | _ => fail "oktaAuthResponse.factorResult"
    end
  else if String.eqb (fold_case k) "_embedded" then
    match v with
    | JNull => (mkOktaAuthResponse (Status res) (Factor res) None, err)
    | JObject kvs =>
        (mkOktaAuthResponse (Status res) (Factor res)
           (Some (foldl (λ m kv, <[kv.1 := kv.2]> m)
                        (default ∅ (Embedded res)) kvs)), err)
    | _ => fail "oktaAuthResponse._embedded"
    end
  else acc.

Definition Decode (body : option Json) : result string oktaAuthResponse :=
  let zero := mkOktaAuthResponse "" "" None in
  match body with
  | None => Err "invalid character looking for beginning of value"
  | Some JNull => Ok zero
  | Some (JObject members) =>
      match foldl decode_member (zero, None) members with
      | (res, None) => Ok res
      | (_, Some e) => Err e
      end
  | Some v =>
      Err ("json: cannot unmarshal " +:+ kind v +:+
           " into Go value of type okta.oktaAuthResponse")
  end.

(** The client counts the request and returns what the network holds. *)
Definition Do (req : Request) (w : SimWorld)
  : result string Response * SimWorld :=
  let w' := mkWorld (limiter_err w) (network w) (S (requests w)) in
  match network w with
  | Err e => (Err e, w')
  | Ok (code, body) => (Ok {| StatusCode := code; Body := body |}, w')
  end.

(** [json.Marshal] writes the keys in sorted order (the escapes of
    string values are left out). *)
Definition quoted (s : string) : string :=
  String "034" (s +:+ String "034" EmptyString).

Definition Marshal (m : gmap string string) : string :=
  "{" +:+ String.concat ","
    ((λ kv, quoted kv.1 +:+ ":" +:+ quoted kv.2) <$>
      merge_sort (λ a b : string * string, String.le a.1 b.1)
                 (map_to_list m))
  +:+ "}".

#[export] Instance platform : Platform := {|
  context_Background := Background;
  Limiter_Wait := Wait;
  url_Hostname := Hostname;
  url_Parse_err := λ _, None;
  json_Marshal := Marshal;
  Client_Do := Do;
  json_Decode := Decode;
|}.

(** A world in working order whose server answers [code] with [body],
    and the response the client makes of that answer. *)
Definition serving (code : Z) (body : option Json) : SimWorld :=
  mkWorld None (Ok (code, body)) 0.

Definition reply (code : Z) (body : option Json) : Response :=
  {| StatusCode := code; Body := body |}.

(** A world whose limiter is out of order. *)
Definition throttled : SimWorld :=
  mkWorld (Some "rate: Wait(n=1) exceeds limiter's burst 0")
          (Ok (200, Some (JObject []))) 0.

(** The nozzle of the organization "acme", and one whose identifier
    smuggles another host into the URL. *)
Definition acme : Nozzle := mkNozzle "acme" FrozenUserAgent.
Definition evil : Nozzle := mkNozzle "evil.com/x#" FrozenUserAgent.

(** Bodies: the three statuses of the spec's examples, and an object
    without a status. *)
Definition status_body (status : string) : option Json :=
  Some (JObject [("status", JString status)]).

Definition session_body : option Json :=
  Some (JObject [("sessionToken", JString "00abc");
                 ("_embedded", JObject [("user", JString "alice")])]).

(** What [session_body] decodes into: no status, so the empty string. *)
Definition session : oktaAuthResponse :=
  {| Status := ""; Factor := "";
     Embedded := Some {["user" := JString "alice"]} |}.

End Sim.

(** * Properties *)

(** ** Construction *)

(** C6.  [New] fails exactly when the options have no key "subdomain", and
    the message of its error then quotes that key; otherwise it returns the
    nozzle whose [Subdomain] is the value under the key and whose
    [UserAgent] is [FrozenUserAgent].  [New] is a function of the options
    alone: it has no world to act on. *)
Theorem New_requires_subdomain (opts : gmap string string) :
  (opts !! "subdomain" = None ↔ ∃ e, New opts = Err e) ∧
  (∀ e, New opts = Err e →
        strings.Contains (Error e) "'subdomain'" = true) ∧
  (∀ v, opts !! "subdomain" = Some v ↔
        New opts = Ok {| Subdomain := v; UserAgent := FrozenUserAgent |}).
Proof.
  unfold New. destruct (opts !! "subdomain") as [v|].
  - split; [split; [done | by intros [e ?]]|].
    split; [done|].
    intros v'; split; by intros [= ->].
  - split; [split; [by eexists | done]|].
    split; [by intros e [= <-] | done].
Qed.

(** C9, as amended.  [New] does not look at the value under "subdomain":
    the [Subdomain] of a constructed nozzle is that value, and it is the
    empty string exactly when the value supplied is. *)
Theorem New_subdomain_unchecked (opts : gmap string string) (n : Nozzle) :
  New opts = Ok n →
  opts !! "subdomain" = Some (Subdomain n) ∧
  (Subdomain n = "" ↔ opts !! "subdomain" = Some "").
Proof.
  unfold New. destruct (opts !! "subdomain") as [v|]; [|done].
  intros [= <-]; cbn. split; [done|].
  split; [by intros -> | by intros [= ->]].
Qed.

(** ** The login attempt *)

Section Properties.
Context `{Platform}.

Implicit Types (n : Nozzle) (w : World) (resp : Response).
Implicit Types (username password : string).

(** Every run of [Login] is one of the five of [Runs]. *)
Lemma Login_runs n username password w :
  Runs n w (run (Login n username password) w).1
           (run (Login n username password) w).2.
Proof.
  unfold run, Login, RateLimiter_Wait, DefaultClient_Do, Decode, Close,
    defer, call, emit, http_NewRequest, mbind, M_bind, mret, M_ret.
  cbn.
  destruct (Limiter_Wait context_Background w) as [[e|] w1] eqn:Hwait; cbn.
  { by apply Runs_no_permit. }
  destruct (ValidateURLSuffix _ _) as [e|] eqn:Hval; cbn.
  { by apply Runs_rejected. }
  destruct (url_Parse_err _) as [e|] eqn:Hparse; cbn.
  { by apply Runs_no_request. }
  match goal with |- context [Client_Do ?r w1] => set (req := r) end.
  destruct (Client_Do req w1) as [[resp|e] w2] eqn:Hdo; cbn.
  2: { by eapply Runs_no_response. }
  assert (URL req = authn_url (Subdomain n)) as Hurl by done.
  clearbody req.
  destruct (Z.eqb_spec (StatusCode resp) 200) as [H200|H200]; cbn.
  { destruct (json_Decode (Body resp)) as [res|e] eqn:Hdec; cbn.
    - eapply (Runs_response _ _ _ _ _ _ _ [EvDecode]); eauto.
      by apply Classified_decoded.
    - eapply (Runs_response _ _ _ _ _ _ _ [EvDecode]); eauto.
      by apply Classified_undecodable. }
  destruct (Z.eqb_spec (StatusCode resp) 401) as [H401|H401]; cbn.
  { eapply (Runs_response _ _ _ _ _ _ _ []); eauto.
    by apply Classified_401. }
  destruct (Z.eqb_spec (StatusCode resp) 429) as [H429|H429]; cbn.
  { eapply (Runs_response _ _ _ _ _ _ _ []); eauto.
    by apply Classified_429. }
  eapply (Runs_response _ _ _ _ _ _ _ []); eauto.
  by apply Classified_unhandled.
Qed.

(** Membership in the short, explicit traces of [Runs]. *)
Ltac in_trace :=
  cbn in *;
  repeat match goal with
         | H : _ ∈ _ :: _ |- _ => apply elem_of_cons in H as [H|H]
         | H : _ ∈ [] |- _ => by apply elem_of_nil in H
         | H : _ ∈ _ ++ _ |- _ => apply elem_of_app in H as [H|H]
         end;
  simplify_eq; eauto.

(** A run in which a response arrived went through the [switch]. *)
Lemma Runs_received n w r s resp :
  Runs n w r s → EvRecv resp ∈ trace s →
  ∃ req t, Classified resp r t ∧
    trace s = EvWait context_Background None :: EvSend req :: EvRecv resp
              :: (t ++ [EvClose])%list.
Proof.
  intros [] Hin; try (in_trace; fail).
  match goal with Hc : Classified _ _ _ |- _ => destruct Hc end; in_trace;
    eexists _, _; (split; [by constructor | reflexivity]).
Qed.

Lemma Login_received n username password w resp :
  EvRecv resp ∈ trace (run (Login n username password) w).2 →
  ∃ req t, Classified resp (run (Login n username password) w).1 t ∧
    trace (run (Login n username password) w).2
    = EvWait context_Background None :: EvSend req :: EvRecv resp
      :: (t ++ [EvClose])%list.
Proof. apply (Runs_received n w), Login_runs. Qed.

(** The comparisons of [Login] on the status string, as propositions. *)
Lemma eqb_bool_decide (s1 s2 : string) :
  String.eqb s1 s2 = bool_decide (s1 = s2).
Proof.
  destruct (String.eqb_spec s1 s2).
  - by rewrite bool_decide_eq_true_2.
  - by rewrite bool_decide_eq_false_2.
Qed.

Lemma negb_eqb_bool_decide (s1 s2 : string) :
  negb (String.eqb s1 s2) = bool_decide (s1 ≠ s2).
Proof.
  destruct (String.eqb_spec s1 s2).
  - rewrite bool_decide_eq_false_2; [done | by intros []].
  - by rewrite bool_decide_eq_true_2.
Qed.

(** C1.  Whenever the response to the login request has status 200 and
    its body decodes into [res], [Login] returns an outcome (no error)
    with [Valid] equal to [Status res ≠ "LOCKED_OUT"], [MFA] equal to
    [Status res = "MFA_REQUIRED"], [Locked] equal to
    [Status res = "LOCKED_OUT"] and [Metadata] the decoded [_embedded]
    map; [RateLimited] is left false. *)
Theorem Login_200_outcome n username password w resp res :
  EvRecv resp ∈ trace (run (Login n username password) w).2 →
  StatusCode resp = 200 →
  json_Decode (Body resp) = Ok res →
  ∃ a, (run (Login n username password) w).1 = Ok a ∧
    Valid a = bool_decide (Status res ≠ "LOCKED_OUT") ∧
    MFA a = bool_decide (Status res = "MFA_REQUIRED") ∧
    Locked a = bool_decide (Status res = "LOCKED_OUT") ∧
    RateLimited a = false ∧
    Metadata a = Embedded res.
Proof.
  intros Hin H200 Hdec.
  destruct (Login_received _ _ _ _ _ Hin) as (req & t & Hc & _).
  destruct Hc as [res' _ Hdec'| | | |]; try congruence.
  assert (res' = res) as -> by congruence.
  eexists; split; [done|]; cbn.
  by rewrite negb_eqb_bool_decide, !eqb_bool_decide.
Qed.

(** C10.  A 200 response whose decoded status is neither "LOCKED_OUT"
    nor "MFA_REQUIRED" is taken for a valid credential: [Login] returns
    an outcome with [Valid] true and [MFA] and [Locked] false.  The
    status is any other string, the empty string of an absent field
    included; nothing is reported as an error. *)
Theorem Login_200_unrecognised_status n username password w resp res :
  EvRecv resp ∈ trace (run (Login n username password) w).2 →
  StatusCode resp = 200 →
  json_Decode (Body resp) = Ok res →
  Status res ≠ "LOCKED_OUT" →
  Status res ≠ "MFA_REQUIRED" →
  ∃ a, (run (Login n username password) w).1 = Ok a ∧
    Valid a = true ∧ MFA a = false ∧ Locked a = false.
Proof.
  intros Hin H200 Hdec Hlocked Hmfa.
  destruct (Login_received _ _ _ _ _ Hin) as (req & t & Hc & _).
  destruct Hc as [res' _ Hdec'| | | |]; try congruence.
  assert (res' = res) as -> by congruence.
  eexists; split; [done|]; cbn.
  rewrite negb_eqb_bool_decide, !eqb_bool_decide.
  by rewrite bool_decide_eq_true_2, !bool_decide_eq_false_2.
Qed.

(** C5.  Whenever the response to the login request has status 401,
    [Login] returns, with no error, the outcome whose fields are all at
    their zero values ([Valid] false among them), and the body of the
    response is never decoded. *)
Theorem Login_401_invalid n username password w resp :
  EvRecv resp ∈ trace (run (Login n username password) w).2 →
  StatusCode resp = 401 →
  (run (Login n username password) w).1
    = Ok {| Valid := false; MFA := false; Locked := false;
            RateLimited := false; Metadata := None |} ∧
  EvDecode ∉ trace (run (Login n username password) w).2.
Proof.
  intros Hin H401.
  destruct (Login_received _ _ _ _ _ Hin) as (req & t & Hc & ->).
  destruct Hc; try lia.
  split; [done|]. intros Hd. in_trace.
Qed.

(** C4.  Whenever the response to the login request has status 429,
    whatever its body, [Login] returns, with no error, the outcome with
    [RateLimited] true and every other field at its zero value; the body
    is never decoded. *)
Theorem Login_429_rate_limited n username password w resp :
  EvRecv resp ∈ trace (run (Login n username password) w).2 →
  StatusCode resp = 429 →
  (run (Login n username password) w).1
    = Ok {| Valid := false; MFA := false; Locked := false;
            RateLimited := true; Metadata := None |} ∧
  EvDecode ∉ trace (run (Login n username password) w).2.
Proof.
  intros Hin H429.
  destruct (Login_received _ _ _ _ _ Hin) as (req & t & Hc & ->).
  destruct Hc; try lia.
  split; [done|]. intros Hd. in_trace.
Qed.

(** Which runs end in a protocol error. *)
Lemma Runs_protocol_error n w r s :
  Runs n w r s →
  (∃ e, r = Err e ∧ ProtocolError e) ↔
  (∃ resp, EvRecv resp ∈ trace s ∧
     ((StatusCode resp ≠ 200 ∧ StatusCode resp ≠ 401 ∧
       StatusCode resp ≠ 429) ∨
      (StatusCode resp = 200 ∧ ∃ e, json_Decode (Body resp) = Err e))).
Proof.
  intros Hrun; split.
  - intros (e & -> & He).
    inversion Hrun as [| | | |w1 req resp w2 r t _ _ _ _ Hc];
      simplify_eq; try done.
    exists resp; split; [set_solver|].
    inversion Hc; simplify_eq; naive_solver.
  - intros (resp & Hin & Hcase).
    destruct (Runs_received _ _ _ _ _ Hrun Hin) as (req & t & Hc & _).
    destruct Hc; try (by eexists; split); exfalso;
      destruct Hcase as [(?&?&?)|(?&?&?)]; congruence || lia.
Qed.

(** C3.  [Login] fails with a protocol error exactly when a response
    arrived whose status is none of 200, 401 and 429, or whose status is
    200 and whose body the JSON decoder rejects.  For a status outside
    the three, the error message ends with the status code in decimal;
    for status 500 in particular [Login] returns that error and no
    outcome. *)
Theorem Login_protocol_error n username password w :
  ((∃ e, (run (Login n username password) w).1 = Err e ∧ ProtocolError e)
   ↔
   (∃ resp, EvRecv resp ∈ trace (run (Login n username password) w).2 ∧
      ((StatusCode resp ≠ 200 ∧ StatusCode resp ≠ 401 ∧
        StatusCode resp ≠ 429) ∨
       (StatusCode resp = 200 ∧
        ∃ e, json_Decode (Body resp) = Err e)))) ∧
  (∀ resp, EvRecv resp ∈ trace (run (Login n username password) w).2 →
     StatusCode resp ≠ 200 → StatusCode resp ≠ 401 →
     StatusCode resp ≠ 429 →
     (run (Login n username password) w).1
     = Err (ErrStatus (Errorf
         ("unhandled status code from okta provider: " +:+
          pretty (StatusCode resp))))) ∧
  (∀ resp, EvRecv resp ∈ trace (run (Login n username password) w).2 →
     StatusCode resp = 500 →
     (run (Login n username password) w).1
     = Err (ErrStatus (Errorf
         "unhandled status code from okta provider: 500"))).
Proof.
  split; [apply (Runs_protocol_error n w), Login_runs|].
  assert (∀ resp,
    EvRecv resp ∈ trace (run (Login n username password) w).2 →
    StatusCode resp ≠ 200 → StatusCode resp ≠ 401 →
    StatusCode resp ≠ 429 →
    (run (Login n username password) w).1
    = Err (ErrStatus (Errorf
        ("unhandled status code from okta provider: " +:+
         pretty (StatusCode resp))))) as Hother.
  { intros resp Hin ???.
    destruct (Login_received _ _ _ _ _ Hin) as (req & t & Hc & _).
    by destruct Hc. }
  split; [done|].
  intros resp Hin H500.
  rewrite (Hother resp Hin) by lia. by rewrite H500.
Qed.

(** What a host without the suffix does to a run. *)
Lemma Runs_foreign_host n w r s :
  Runs n w r s →
  strings.HasSuffix (url_Hostname (authn_url (Subdomain n))) ".okta.com"
    = false →
  ∃ e, r = Err e ∧ sent (trace s) = [] ∧
    (EvWait context_Background None ∈ trace s →
     SecurityError e ∧
     e = ErrValidate
           (HostLacksSuffix (authn_url (Subdomain n)) ".okta.com")).
Proof.
  intros Hrun Hhost.
  assert (ValidateURLSuffix (authn_url (Subdomain n)) ".okta.com"
          = Some (HostLacksSuffix (authn_url (Subdomain n)) ".okta.com"))
    as Hval by (unfold ValidateURLSuffix; by rewrite Hhost).
  inversion Hrun; simplify_eq; eexists; (split; [done|]); cbn;
    (split; [done|]); intros Hin; in_trace.
Qed.

(** C2.  When the host of the URL made from the organization identifier
    does not end with ".okta.com", [Login] fails and hands no request to
    the HTTP client, in every world and for every credential; once the
    permit is granted the failure is the security error of the URL
    validation, which names the URL and the suffix.  Nothing switches the
    check off: the statement holds for every call. *)
Theorem Login_foreign_host_rejected n username password w :
  strings.HasSuffix (url_Hostname (authn_url (Subdomain n))) ".okta.com"
    = false →
  ∃ e, (run (Login n username password) w).1 = Err e ∧
    sent (trace (run (Login n username password) w).2) = [] ∧
    (EvWait context_Background None
       ∈ trace (run (Login n username password) w).2 →
     SecurityError e ∧
     e = ErrValidate
           (HostLacksSuffix (authn_url (Subdomain n)) ".okta.com")).
Proof.
  intros Hhost. eapply Runs_foreign_host; [apply Login_runs | done].
Qed.

(** The wait comes first in every run, and a failed wait ends it. *)
Lemma Runs_wait_first n w r s :
  Runs n w r s →
  ∃ tl, trace s
        = EvWait context_Background (Limiter_Wait context_Background w).1
          :: tl ∧
    (∀ ctx err, EvWait ctx err ∉ tl) ∧
    (∀ e, (Limiter_Wait context_Background w).1 = Some e →
          r = Err (ErrWait e) ∧ tl = [] ∧
          world s = (Limiter_Wait context_Background w).2).
Proof.
  intros Hrun.
  inversion Hrun as [e w1 Hw|w1 e Hw|w1 e Hw|w1 req e w2 Hw
                    |w1 req resp w2 r' t Hw ? ? ? Hc];
    simplify_eq; rewrite Hw; cbn; eexists; (split; [done|]);
    (split; [intros ctx err Hin|intros ? ?; by simplify_eq]).
  1-4: in_trace.
  destruct Hc; in_trace.
Qed.

(** C7.  In every run of [Login], a request handed to the HTTP client is
    preceded in the trace by a granted permit; and when the limiter
    returns an error instead of a permit, [Login] returns that error,
    hands no request to the client and leaves the world as the limiter
    left it. *)
Theorem Login_permit_before_request n username password w :
  (∀ pre req post,
     trace (run (Login n username password) w).2
     = (pre ++ EvSend req :: post)%list →
     EvWait context_Background None ∈ pre) ∧
  (∀ e w1,
     Limiter_Wait context_Background w = (Some e, w1) →
     (run (Login n username password) w).1 = Err (ErrWait e) ∧
     sent (trace (run (Login n username password) w).2) = [] ∧
     world (run (Login n username password) w).2 = w1).
Proof.
  destruct (Runs_wait_first _ _ _ _ (Login_runs n username password w))
    as (tl & Htrace & _ & Hfail).
  split.
  - intros pre req post Heq. rewrite Htrace in Heq.
    destruct pre as [|ev pre]; simplify_eq/=.
    destruct (Limiter_Wait context_Background w).1 as [e|] eqn:Hw;
      [|by left].
    destruct (Hfail e) as (_ & Hnil & _); [done|].
    by destruct pre.
  - intros e w1 Hw. rewrite Hw in Hfail.
    destruct (Hfail e) as (-> & -> & ->); [done|].
    by rewrite Htrace.
Qed.

(** C8, as amended.  [Login] has no context parameter: the one wait of a
    run is made under [context.Background()], so no context held by the
    caller is ever looked at.  When that wait returns an error, [Login]
    returns the very error, which is not a network error, and hands no
    request to the HTTP client. *)
Theorem Login_waits_under_background n username password w :
  (∀ ctx err,
     EvWait ctx err ∈ trace (run (Login n username password) w).2 →
     ctx = context_Background ∧
     err = (Limiter_Wait context_Background w).1) ∧
  (∀ e,
     EvWait context_Background (Some e)
       ∈ trace (run (Login n username password) w).2 →
     (run (Login n username password) w).1 = Err (ErrWait e) ∧
     ¬ NetworkError (ErrWait e) ∧
     sent (trace (run (Login n username password) w).2) = []).
Proof.
  destruct (Runs_wait_first _ _ _ _ (Login_runs n username password w))
    as (tl & Htrace & Hnone & Hfail).
  assert (∀ ctx err,
    EvWait ctx err ∈ trace (run (Login n username password) w).2 →
    ctx = context_Background ∧
    err = (Limiter_Wait context_Background w).1) as Honly.
  { intros ctx err. rewrite Htrace, elem_of_cons.
    intros [?|?]; [by simplify_eq | by destruct (Hnone ctx err)]. }
  split; [done|].
  intros e Hin. destruct (Honly _ _ Hin) as [_ Hw].
  destruct (Hfail e) as (-> & -> & _); [done|].
  rewrite Htrace. split; [done|]. split; [by intros []|done].
Qed.

End Properties.

(** ** More about the login attempt

    Properties of [Login] beyond the claims: what it sends, what it does
    with the response, and which outcomes it can return. *)

Section Attempt.
Context `{Platform}.

Implicit Types (n : Nozzle) (w : World) (resp : Response) (req : Request).
Implicit Types (username password : string).

(** The requests of a run, computed: there is one, built from the nozzle
    and the credential, when the permit is granted, the URL passes the
    validation and parses; otherwise there is none. *)
Lemma Login_sent n username password w :
  sent (trace (run (Login n username password) w).2)
  = match (Limiter_Wait context_Background w).1,
          ValidateURLSuffix (authn_url (Subdomain n)) ".okta.com",
          url_Parse_err (authn_url (Subdomain n)) with
    | None, None, None =>
        [ {| Method := "POST";
             URL := authn_url (Subdomain n);
             Header := <["User-Agent" := [UserAgent n]]>
                         (<["Content-Type" := ["application/json"]]> ∅);
             ReqBody := json_Marshal (<["username" := username]>
                                        (<["password" := password]> ∅)) |} ]
    | _, _, _ => []
    end.
Proof.
  unfold run, Login, RateLimiter_Wait, DefaultClient_Do, Decode, Close,
    defer, call, emit, http_NewRequest, mbind, M_bind, mret, M_ret.
  cbn.
  destruct (Limiter_Wait context_Background w) as [[e|] w1]; cbn; [done|].
  destruct (ValidateURLSuffix _ _) as [e|]; cbn; [done|].
  destruct (url_Parse_err _) as [e|]; cbn; [done|].
  match goal with |- context [Client_Do ?r w1] => destruct (Client_Do r w1)
    as [[resp|e] w2] end; cbn; [|done].
  destruct (StatusCode resp =? 200); cbn.
  { by destruct (json_Decode (Body resp)). }
  destruct (StatusCode resp =? 401); cbn; [done|].
  by destruct (StatusCode resp =? 429).
Qed.

(** Case analysis on the explicit traces of [Runs]. *)
Ltac trace_cases :=
  cbn in *;
  repeat match goal with
         | H : _ ∈ _ :: _ |- _ => apply elem_of_cons in H as [H|H]
         | H : _ ∈ [] |- _ => by apply elem_of_nil in H
         | H : _ ∈ _ ++ _ |- _ => apply elem_of_app in H as [H|H]
         end;
  simplify_eq; eauto.

(** Membership in a list by position. *)
Ltac found :=
  repeat first [apply list_elem_of_here | apply list_elem_of_further].

(** The run of [Login] as a pair, with its description by [Runs]. *)
Ltac run_cases n username password w r s Hrun :=
  pose proof (Login_runs n username password w) as Hrun;
  destruct (run (Login n username password) w) as [r s];
  cbn [fst snd] in *.

(** X1.  Every request [Login] hands to the HTTP client is a POST to the
    authentication URL of the nozzle's subdomain, and its body is the
    JSON encoding of a map with exactly the keys "username" and
    "password", bound to the credential of the call. *)
Theorem Login_request_line n username password w req :
  req ∈ sent (trace (run (Login n username password) w).2) →
  Method req = "POST" ∧
  URL req = authn_url (Subdomain n) ∧
  ∃ m : gmap string string,
    ReqBody req = json_Marshal m ∧
    m !! "username" = Some username ∧
    m !! "password" = Some password ∧
    dom m = {["username"; "password"]}.
Proof.
  rewrite Login_sent.
  destruct (Limiter_Wait context_Background w).1; [by intros ?%elem_of_nil|].
  destruct (ValidateURLSuffix _ _); [by intros ?%elem_of_nil|].
  destruct (url_Parse_err _); [by intros ?%elem_of_nil|].
  intros ->%list_elem_of_singleton; cbn.
  do 2 (split; [done|]). eexists; split; [done|].
  split; [by rewrite lookup_insert_eq|].
  split; [by rewrite lookup_insert_ne, lookup_insert_eq|].
  by rewrite !dom_insert_L, dom_empty_L, (right_id_L ∅ (∪)).
Qed.

(** X2.  Every request [Login] hands to the HTTP client carries the
    nozzle's own user agent under "User-Agent" and "application/json"
    under "Content-Type", each as the only value, and no other header. *)
Theorem Login_request_headers n username password w req :
  req ∈ sent (trace (run (Login n username password) w).2) →
  Header req !! "User-Agent" = Some [UserAgent n] ∧
  Header req !! "Content-Type" = Some ["application/json"] ∧
  ∀ key, key ≠ "User-Agent" → key ≠ "Content-Type" →
         Header req !! key = None.
Proof.
  rewrite Login_sent.
  destruct (Limiter_Wait context_Background w).1; [by intros ?%elem_of_nil|].
  destruct (ValidateURLSuffix _ _); [by intros ?%elem_of_nil|].
  destruct (url_Parse_err _); [by intros ?%elem_of_nil|].
  intros ->%list_elem_of_singleton; cbn.
  split; [by rewrite lookup_insert_eq|].
  split; [by rewrite lookup_insert_ne, lookup_insert_eq|].
  intros key ??. by rewrite !lookup_insert_ne, lookup_empty.
Qed.

(** X3.  A login attempt is a single attempt: every run waits for a
    permit exactly once, as its first act, and hands at most one request
    to the HTTP client; nothing is retried. *)
Theorem Login_single_attempt n username password w :
  (length (sent (trace (run (Login n username password) w).2)) ≤ 1)%nat ∧
  ∃ err tl,
    trace (run (Login n username password) w).2
    = EvWait context_Background err :: tl ∧
    ∀ ctx err', EvWait ctx err' ∉ tl.
Proof.
  split.
  - rewrite Login_sent. repeat case_match; cbn; lia.
  - destruct (Runs_wait_first _ _ _ _ (Login_runs n username password w))
      as (tl & Htrace & Hnone & _).
    by eexists _, tl.
Qed.

(** X4.  The body of a response is closed in exactly the runs in which a
    response arrived, on the error paths as on the others; it is closed
    once, and closing it is the last thing the run does. *)
Theorem Login_closes_body n username password w :
  (EvClose ∈ trace (run (Login n username password) w).2 ↔
   ∃ resp, EvRecv resp ∈ trace (run (Login n username password) w).2) ∧
  (EvClose ∈ trace (run (Login n username password) w).2 →
   ∃ pre, trace (run (Login n username password) w).2
          = (pre ++ [EvClose])%list ∧
          EvClose ∉ pre).
Proof.
  run_cases n username password w r s Hrun.
  inversion Hrun as [| | | |w1 req resp w2 r' t _ _ _ _ Hc]; simplify_eq;
    cbn.
  1-4: split; [split; [intros Hin|intros [resp Hin]]|intros Hin];
       trace_cases.
  split; [split; [intros _; exists resp; found|intros _]|].
  { do 3 apply list_elem_of_further. apply elem_of_app; right; found. }
  intros _.
  exists (EvWait context_Background None :: EvSend req :: EvRecv resp :: t).
  split; [done|]. intros Hin. destruct Hc; trace_cases.
Qed.

(** X5.  [Login] fails with a network error exactly when it handed a
    request to the HTTP client and no response came back; the error it
    returns is then the very error of the client for that request. *)
Theorem Login_network_error n username password w :
  ((∃ e, (run (Login n username password) w).1 = Err e ∧ NetworkError e) ↔
   (sent (trace (run (Login n username password) w).2) ≠ [] ∧
    ∀ resp, EvRecv resp ∉ trace (run (Login n username password) w).2)) ∧
  (∀ e, (run (Login n username password) w).1 = Err (ErrDo e) →
        ∃ req w2,
          sent (trace (run (Login n username password) w).2) = [req] ∧
          Client_Do req (Limiter_Wait context_Background w).2 = (Err e, w2) ∧
          world (run (Login n username password) w).2 = w2).
Proof.
  run_cases n username password w r s Hrun.
  inversion Hrun as [| | |w1 req e w2 Hw|w1 req resp w2 r' t _ _ _ _ Hc];
    simplify_eq; cbn.
  1-3: split; [split; [intros (? & [= <-] & Hn); by cbn in Hn
                       |by intros [? _]]|done].
  - split; [split|].
    + intros _. split; [done|]. intros resp Hin. trace_cases.
    + intros _. by eexists.
    + intros e' [= <-]. exists req, w2. by rewrite Hw.
  - split; [split|].
    + intros (e & -> & He). inversion Hc; simplify_eq; by cbn in He.
    + intros [_ Hno]. destruct (Hno resp). found.
    + intros e ->. inversion Hc.
Qed.

(** X8.  [Login] returns an outcome, not an error, exactly when a
    response arrived whose status is 401 or 429, or is 200 with a body
    that the JSON decoder accepts. *)
Theorem Login_outcome_iff n username password w :
  (∃ a, (run (Login n username password) w).1 = Ok a) ↔
  (∃ resp, EvRecv resp ∈ trace (run (Login n username password) w).2 ∧
     (StatusCode resp = 401 ∨ StatusCode resp = 429 ∨
      (StatusCode resp = 200 ∧ ∃ res, json_Decode (Body resp) = Ok res))).
Proof.
  split.
  - intros [a Ha].
    run_cases n username password w r s Hrun.
    inversion Hrun as [| | | |w1 req resp w2 r' t _ _ _ _ Hc];
      simplify_eq.
    exists resp; split; [found|].
    inversion Hc; simplify_eq; eauto.
  - intros (resp & Hin & Hcase).
    destruct (Login_received _ _ _ _ _ Hin) as (req & t & Hc & _).
    destruct Hc; try (by eexists); exfalso;
      destruct Hcase as [?|[?|(?&?&?)]]; congruence || lia.
Qed.

(** X9.  The JSON decoder reads the body of the response in exactly the
    runs in which a response with status 200 arrived: no other status,
    handled or not, has its body read. *)
Theorem Login_decodes_only_200 n username password w :
  EvDecode ∈ trace (run (Login n username password) w).2 ↔
  ∃ resp, EvRecv resp ∈ trace (run (Login n username password) w).2 ∧
          StatusCode resp = 200.
Proof.
  run_cases n username password w r s Hrun.
  inversion Hrun as [| | | |w1 req resp w2 r' t _ _ _ _ Hc]; simplify_eq;
    cbn.
  1-4: split; [intros Hin|intros (resp & Hin & _)]; trace_cases.
  split.
  - intros Hin. exists resp. split; [found|].
    destruct Hc; trace_cases.
  - intros (resp' & Hin & H200).
    assert (resp' = resp) as -> by (destruct Hc; trace_cases).
    destruct Hc; try lia; found.
Qed.

(** X6.  The flags of an outcome exclude one another as the code sets
    them: multi-factor goes with a valid credential that is not locked
    out, a locked-out account is never valid, and a rate-limited outcome
    says nothing else and carries no metadata. *)
Theorem Login_outcome_exclusive n username password w a :
  (run (Login n username password) w).1 = Ok a →
  (MFA a = true → Valid a = true ∧ Locked a = false) ∧
  (Locked a = true → Valid a = false ∧ MFA a = false) ∧
  (RateLimited a = true →
   Valid a = false ∧ MFA a = false ∧ Locked a = false ∧ Metadata a = None).
Proof.
  intros Ha.
  run_cases n username password w r s Hrun.
  inversion Hrun as [| | | |w1 req resp w2 r' t _ _ _ _ Hc]; simplify_eq.
  inversion Hc as [res| | | |]; simplify_eq; cbn; try done.
  destruct (String.eqb_spec (Status res) "LOCKED_OUT") as [Hl|Hl],
           (String.eqb_spec (Status res) "MFA_REQUIRED") as [Hm|Hm];
    cbn; try done.
  by rewrite Hl in Hm.
Qed.

(** X7.  A credential is reported valid only on the provider's word: an
    outcome with [Valid] true comes from a response with status 200 whose
    body was decoded to a status other than "LOCKED_OUT", and its
    metadata are the [_embedded] map of that body. *)
Theorem Login_valid_needs_200 n username password w a :
  (run (Login n username password) w).1 = Ok a →
  Valid a = true →
  ∃ resp res,
    EvRecv resp ∈ trace (run (Login n username password) w).2 ∧
    StatusCode resp = 200 ∧
    json_Decode (Body resp) = Ok res ∧
    Status res ≠ "LOCKED_OUT" ∧
    Metadata a = Embedded res.
Proof.
  intros Ha Hvalid.
  run_cases n username password w r s Hrun.
  inversion Hrun as [| | | |w1 req resp w2 r' t _ _ _ _ Hc]; simplify_eq.
  inversion Hc as [res| | | |]; simplify_eq; cbn in *; try done.
  exists resp, res. split; [found|]. do 2 (split; [done|]).
  split; [|done].
  by destruct (String.eqb_spec (Status res) "LOCKED_OUT").
Qed.

(** X10.  The credential travels in the body of the request and nowhere
    else: the method, the URL and the headers of what [Login] sends are
    the same whatever user name and password it is called with. *)
Theorem Login_credential_in_body_only
    n username password username' password' w :
  (λ req, (Method req, URL req, Header req))
    <$> sent (trace (run (Login n username password) w).2)
  = (λ req, (Method req, URL req, Header req))
    <$> sent (trace (run (Login n username' password') w).2).
Proof. rewrite !Login_sent. by repeat case_match. Qed.

(** X11.  From the options to the wire: the nozzle that [New] makes of
    options with the value [v] under "subdomain" sends its requests to
    [https://v.okta.com/api/v1/authn] and under the frozen user agent,
    whatever else the options hold. *)
Theorem New_then_Login (opts : gmap string string) (v : string) :
  opts !! "subdomain" = Some v →
  ∃ n, New opts = Ok n ∧
    ∀ username password w req,
      req ∈ sent (trace (run (Login n username password) w).2) →
      URL req = "https://" +:+ v +:+ ".okta.com/api/v1/authn" ∧
      Header req !! "User-Agent" = Some [FrozenUserAgent].
Proof.
  intros Hv. unfold New. rewrite Hv. eexists; split; [done|].
  intros username password w req. rewrite Login_sent; cbn.
  repeat case_match; try by intros ?%elem_of_nil.
  intros ->%list_elem_of_singleton; cbn.
  split; [done|]. by rewrite lookup_insert_eq.
Qed.

End Attempt.

(** ** More about the construction and the URL *)

(** X12.  [New] looks at the options through the key "subdomain" only: two
    option maps give the same result exactly when they agree on that key,
    so setting or removing any other key changes nothing. *)
Theorem New_other_options_ignored (opts opts' : gmap string string) :
  (New opts = New opts' ↔ opts !! "subdomain" = opts' !! "subdomain") ∧
  (∀ key value, key ≠ "subdomain" →
     New (<[key := value]> opts) = New opts ∧
     New (delete key opts) = New opts).
Proof.
  unfold New. split.
  - destruct (opts !! "subdomain"), (opts' !! "subdomain");
      split; intros Heq; by simplify_eq.
  - intros key value Hkey.
    by rewrite lookup_insert_ne, lookup_delete_ne.
Qed.

(** The characters of a concatenation. *)
Lemma list_ascii_of_string_app (s1 s2 : string) :
  list_ascii_of_string (s1 +:+ s2)
  = (list_ascii_of_string s1 ++ list_ascii_of_string s2)%list.
Proof. induction s1 as [|c s1 IH]; simpl; [done | by f_equal]. Qed.

Lemma string_app_inj_r (s1 s2 t : string) :
  s1 +:+ t = s2 +:+ t → s1 = s2.
Proof.
  intros Heq.
  apply (f_equal list_ascii_of_string) in Heq.
  rewrite !list_ascii_of_string_app in Heq.
  apply app_inv_tail in Heq.
  apply (f_equal string_of_list_ascii) in Heq.
  by rewrite !string_of_list_ascii_of_string in Heq.
Qed.

(** X13.  The authentication URL determines the subdomain it was made
    from: two nozzles with different subdomains never share a URL. *)
Theorem authn_url_inj (subdomain subdomain' : string) :
  authn_url subdomain = authn_url subdomain' → subdomain = subdomain'.
Proof.
  unfold authn_url. intros Heq.
  apply (inj (String.app "https://")) in Heq.
  by apply string_app_inj_r in Heq.
Qed.

(** * Runs on the concrete platform *)

#[local] Existing Instance Sim.types.
#[local] Existing Instance Sim.platform.

(** Membership in the trace of a concrete run. *)
Ltac in_run :=
  vm_compute;
  repeat first [apply list_elem_of_here | apply list_elem_of_further].

(** The examples of the spec's section 8. *)
Example Login_success :
  (run (Login Sim.acme "alice" "hunter2")
       (Sim.serving 200 (Sim.status_body "SUCCESS"))).1
  = Ok {| Valid := true; MFA := false; Locked := false;
          RateLimited := false; Metadata := None |}.
Proof. reflexivity. Qed.

Example Login_locked_out :
  (run (Login Sim.acme "alice" "hunter2")
       (Sim.serving 200 (Sim.status_body "LOCKED_OUT"))).1
  = Ok {| Valid := false; MFA := false; Locked := true;
          RateLimited := false; Metadata := None |}.
Proof. reflexivity. Qed.

Example Login_sends_one_request :
  sent (trace (run (Login Sim.acme "alice" "hunter2")
                   (Sim.serving 401 None)).2)
  = [ {| Method := "POST";
         URL := "https://acme.okta.com/api/v1/authn";
         Header := <["User-Agent" := [FrozenUserAgent]]>
                     (<["Content-Type" := ["application/json"]]> ∅);
         ReqBody := Sim.Marshal (<["username" := "alice"]>
                                   (<["password" := "hunter2"]> ∅)) |} ].
Proof. vm_compute. reflexivity. Qed.

Lemma Login_200_outcome_witness :
  ∃ a, (run (Login Sim.acme "alice" "hunter2")
            (Sim.serving 200 (Sim.status_body "MFA_REQUIRED"))).1 = Ok a ∧
    Valid a = true ∧ MFA a = true ∧ Locked a = false ∧ Metadata a = None.
Proof.
  destruct (@Login_200_outcome Sim.types Sim.platform Sim.acme "alice" "hunter2"
              (Sim.serving 200 (Sim.status_body "MFA_REQUIRED"))
              (Sim.reply 200 (Sim.status_body "MFA_REQUIRED"))
              (mkOktaAuthResponse "MFA_REQUIRED" "" None))
    as (a & Ha & Hvalid & Hmfa & Hlocked & _ & Hmeta);
    [in_run | reflexivity | reflexivity |].
  exists a. rewrite Hvalid, Hmfa, Hlocked, Hmeta. by repeat split.
Defined.

Lemma Login_foreign_host_rejected_witness :
  strings.HasSuffix (url_Hostname (authn_url "evil.com/x#")) ".okta.com"
    = false ∧
  ∃ e, (run (Login Sim.evil "alice" "hunter2")
            (Sim.serving 200 (Sim.status_body "SUCCESS"))).1 = Err e ∧
    sent (trace (run (Login Sim.evil "alice" "hunter2")
                     (Sim.serving 200 (Sim.status_body "SUCCESS"))).2) = [] ∧
    e = ErrValidate
          (HostLacksSuffix "https://evil.com/x#.okta.com/api/v1/authn"
                           ".okta.com").
Proof.
  split; [reflexivity|].
  destruct (@Login_foreign_host_rejected Sim.types Sim.platform Sim.evil "alice" "hunter2"
              (Sim.serving 200 (Sim.status_body "SUCCESS")))
    as (e & He & Hsent & Hkind); [reflexivity|].
  exists e. split; [exact He|]. split; [exact Hsent|].
  apply Hkind. in_run.
Defined.

Lemma Login_protocol_error_witness :
  (run (Login Sim.acme "alice" "hunter2") (Sim.serving 500 None)).1
  = Err (ErrStatus (Errorf "unhandled status code from okta provider: 500")).
Proof.
  destruct (@Login_protocol_error Sim.types Sim.platform Sim.acme "alice" "hunter2"
              (Sim.serving 500 None)) as (_ & _ & H500).
  apply (H500 (Sim.reply 500 None)); [in_run | reflexivity].
Defined.

Lemma Login_429_rate_limited_witness :
  (run (Login Sim.acme "alice" "hunter2")
       (Sim.serving 429 (Some (Sim.JString "slow down")))).1
  = Ok {| Valid := false; MFA := false; Locked := false;
          RateLimited := true; Metadata := None |} ∧
  EvDecode ∉ trace (run (Login Sim.acme "alice" "hunter2")
                        (Sim.serving 429 (Some (Sim.JString "slow down")))).2.
Proof.
  apply (@Login_429_rate_limited Sim.types Sim.platform Sim.acme "alice" "hunter2"
           (Sim.serving 429 (Some (Sim.JString "slow down")))
           (Sim.reply 429 (Some (Sim.JString "slow down"))));
    [in_run | reflexivity].
Defined.

Lemma Login_401_invalid_witness :
  (run (Login Sim.acme "alice" "hunter2") (Sim.serving 401 None)).1
  = Ok {| Valid := false; MFA := false; Locked := false;
          RateLimited := false; Metadata := None |} ∧
  EvDecode ∉ trace (run (Login Sim.acme "alice" "hunter2")
                        (Sim.serving 401 None)).2.
Proof.
  apply (@Login_401_invalid Sim.types Sim.platform Sim.acme "alice" "hunter2"
           (Sim.serving 401 None) (Sim.reply 401 None));
    [in_run | reflexivity].
Defined.

Lemma New_requires_subdomain_witness :
  New {["subdomain" := "acme"]} = Ok Sim.acme ∧
  ∃ e, New {["domain" := "acme"]} = Err e.
Proof.
  split.
  - destruct (New_requires_subdomain {["subdomain" := "acme"]})
      as (_ & _ & Hok).
    apply Hok. vm_compute. reflexivity.
  - destruct (New_requires_subdomain {["domain" := "acme"]})
      as (Herr & _ & _).
    apply Herr. vm_compute. reflexivity.
Defined.

Lemma Login_permit_before_request_witness :
  (run (Login Sim.acme "alice" "hunter2") Sim.throttled).1
  = Err (ErrWait "rate: Wait(n=1) exceeds limiter's burst 0") ∧
  sent (trace (run (Login Sim.acme "alice" "hunter2") Sim.throttled).2) = [] ∧
  world (run (Login Sim.acme "alice" "hunter2") Sim.throttled).2
  = Sim.throttled.
Proof.
  destruct (@Login_permit_before_request Sim.types Sim.platform Sim.acme "alice" "hunter2"
              Sim.throttled) as (_ & Hfail).
  apply Hfail. reflexivity.
Defined.

(** C8, as stated, fails.  The caller holds a cancelled context (waiting
    under it ends at once with the cancellation error), and still [Login],
    which cannot be given that context, obtains its permit, sends its
    request and returns an outcome. *)
Lemma Login_ignores_caller_context :
  (Limiter_Wait Sim.Cancelled (Sim.serving 401 None)).1
  = Some "context canceled" ∧
  (run (Login Sim.acme "alice" "hunter2") (Sim.serving 401 None)).1
  = Ok {| Valid := false; MFA := false; Locked := false;
          RateLimited := false; Metadata := None |} ∧
  length (sent (trace (run (Login Sim.acme "alice" "hunter2")
                           (Sim.serving 401 None)).2)) = 1%nat ∧
  Sim.requests (world (run (Login Sim.acme "alice" "hunter2")
                           (Sim.serving 401 None)).2) = 1%nat.
Proof. by repeat split. Qed.

Lemma Login_waits_under_background_witness :
  EvWait Sim.Background (Some "rate: Wait(n=1) exceeds limiter's burst 0")
    ∈ trace (run (Login Sim.acme "alice" "hunter2") Sim.throttled).2 ∧
  (run (Login Sim.acme "alice" "hunter2") Sim.throttled).1
  = Err (ErrWait "rate: Wait(n=1) exceeds limiter's burst 0") ∧
  sent (trace (run (Login Sim.acme "alice" "hunter2") Sim.throttled).2) = [].
Proof.
  assert (EvWait Sim.Background
            (Some "rate: Wait(n=1) exceeds limiter's burst 0")
          ∈ trace (run (Login Sim.acme "alice" "hunter2") Sim.throttled).2)
    as Hin by in_run.
  split; [exact Hin|].
  destruct (@Login_waits_under_background Sim.types Sim.platform Sim.acme "alice" "hunter2"
              Sim.throttled) as (_ & Hfail).
  destruct (Hfail _ Hin) as (Hr & _ & Hsent). by split.
Defined.

(** C9, as stated, fails: an empty value under "subdomain" is accepted. *)
Lemma New_accepts_empty_subdomain :
  ∃ n, New {["subdomain" := ""]} = Ok n ∧ Subdomain n = "".
Proof. by eexists. Qed.

Lemma New_subdomain_unchecked_witness :
  New {["subdomain" := "acme"]} = Ok Sim.acme ∧
  ({["subdomain" := "acme"]} : gmap string string) !! "subdomain"
  = Some "acme" ∧
  ("acme" = "" ↔
   ({["subdomain" := "acme"]} : gmap string string) !! "subdomain" = Some "").
Proof.
  assert (New {["subdomain" := "acme"]} = Ok Sim.acme) as Hnew
    by reflexivity.
  split; [exact Hnew|].
  apply (New_subdomain_unchecked {["subdomain" := "acme"]} Sim.acme Hnew).
Defined.

Lemma Login_200_unrecognised_status_witness :
  json_Decode Sim.session_body = Ok Sim.session ∧
  Status Sim.session = "" ∧
  ∃ a, (run (Login Sim.acme "alice" "hunter2")
            (Sim.serving 200 Sim.session_body)).1 = Ok a ∧
    Valid a = true ∧ MFA a = false ∧ Locked a = false.
Proof.
  assert (json_Decode Sim.session_body = Ok Sim.session)
    as Hdec by (vm_compute; reflexivity).
  split; [exact Hdec|]. split; [reflexivity|].
  apply (@Login_200_unrecognised_status Sim.types Sim.platform
           Sim.acme "alice" "hunter2"
           (Sim.serving 200 Sim.session_body)
           (Sim.reply 200 Sim.session_body) Sim.session);
    [in_run | reflexivity | exact Hdec | done | done].
Defined.

(** ** Runs for the further properties *)

Lemma Login_request_line_witness :
  ∃ req,
    sent (trace (run (Login Sim.acme "alice" "hunter2")
                     (Sim.serving 401 None)).2) = [req] ∧
    Method req = "POST" ∧
    URL req = "https://acme.okta.com/api/v1/authn".
Proof.
  eexists. split; [vm_compute; reflexivity|].
  match goal with |- Method ?r = _ ∧ _ =>
    destruct (@Login_request_line Sim.types Sim.platform
                Sim.acme "alice" "hunter2" (Sim.serving 401 None) r)
      as (Hmethod & Hurl & _); [in_run|]
  end.
  split; [exact Hmethod | exact Hurl].
Defined.

Lemma Login_request_headers_witness :
  ∃ req,
    sent (trace (run (Login Sim.acme "alice" "hunter2")
                     (Sim.serving 401 None)).2) = [req] ∧
    Header req !! "User-Agent" = Some [FrozenUserAgent] ∧
    Header req !! "Content-Type" = Some ["application/json"] ∧
    Header req !! "Authorization" = None.
Proof.
  eexists. split; [vm_compute; reflexivity|].
  match goal with |- Header ?r !! _ = _ ∧ _ =>
    destruct (@Login_request_headers Sim.types Sim.platform
                Sim.acme "alice" "hunter2" (Sim.serving 401 None) r)
      as (Hua & Hct & Hnone); [in_run|]
  end.
  split; [exact Hua|]. split; [exact Hct|]. by apply Hnone.
Defined.

Lemma Login_outcome_exclusive_witness :
  ∃ a, (run (Login Sim.acme "alice" "hunter2")
            (Sim.serving 200 (Sim.status_body "LOCKED_OUT"))).1 = Ok a ∧
    Locked a = true ∧ Valid a = false ∧ MFA a = false.
Proof.
  eexists. split; [reflexivity|]. split; [reflexivity|].
  match goal with |- Valid ?a = _ ∧ _ =>
    destruct (@Login_outcome_exclusive Sim.types Sim.platform
                Sim.acme "alice" "hunter2"
                (Sim.serving 200 (Sim.status_body "LOCKED_OUT")) a)
      as (_ & Hlocked & _); [reflexivity|]
  end.
  apply Hlocked. reflexivity.
Defined.

Lemma Login_valid_needs_200_witness :
  ∃ resp res,
    EvRecv resp ∈ trace (run (Login Sim.acme "alice" "hunter2")
                             (Sim.serving 200 Sim.session_body)).2 ∧
    StatusCode resp = 200 ∧
    json_Decode (Body resp) = Ok res ∧
    Status res ≠ "LOCKED_OUT" ∧
    Some {["user" := Sim.JString "alice"]} = Embedded res.
Proof.
  apply (@Login_valid_needs_200 Sim.types Sim.platform
           Sim.acme "alice" "hunter2" (Sim.serving 200 Sim.session_body)
           {| Valid := true; MFA := false; Locked := false;
              RateLimited := false;
              Metadata := Some {["user" := Sim.JString "alice"]} |});
    [vm_compute; reflexivity | reflexivity].
Defined.

Lemma New_then_Login_witness :
  ∃ n, New {["subdomain" := "acme"; "proxy" := "localhost:8080"]} = Ok n ∧
    ∀ username password w req,
      req ∈ sent (trace (run (Login n username password) w).2) →
      URL req = "https://acme.okta.com/api/v1/authn" ∧
      Header req !! "User-Agent" = Some [FrozenUserAgent].
Proof.
  apply (@New_then_Login Sim.types Sim.platform
           {["subdomain" := "acme"; "proxy" := "localhost:8080"]} "acme").
  vm_compute. reflexivity.
Defined.

Lemma authn_url_inj_witness :
  authn_url "acme" = "https://acme.okta.com/api/v1/authn" ∧
  "acme" = "acme".
Proof.
  split; [reflexivity|].
  apply (authn_url_inj "acme" "acme"). reflexivity.
Defined.
